(** * DataStorageApp: a shallow embedding of [app/src/main.py]

    The application keeps the latest value of four vehicle signals, samples
    them every 100 ms into a [deque] that holds at most 300 samples, and on a
    crash event writes the retained samples to [vehicle_data.csv], clears the
    deque and publishes a response.

    Python objects are embedded as inductive values, the [deque] as a list
    with its oldest element at the head, and the coroutines of the class as
    computations in a state-and-exception monad over the application object
    and its surroundings (the CSV file, the published messages, the log). *)

From Stdlib Require Import ZArith List String Ascii Bool Lia.
From Stdlib Require Import Floats.SpecFloat DecimalString.
Import ListNotations.

Set Warnings "-register-all".

Open Scope string_scope.
Open Scope list_scope.
Open Scope Z_scope.

(** ** Python values *)

Module Py.

(** A Python [float]: an IEEE 754 binary64 datum.  The program stores and
    prints floats and compares one against [0]; it never computes on them. *)
Definition float := spec_float.

(** The values a sample field or a CSV cell holds. *)
Inductive value :=
| VNone
| VBool (b : bool)
| VInt (z : Z)
| VFloat (f : float)
| VStr (s : string).

(** What [json.loads] returns. *)
Inductive json :=
| JNull
| JBool (b : bool)
| JInt (z : Z)
| JFloat (f : float)
| JStr (s : string)
| JList (l : list json)
| JDict (d : list (string * json)).

(** The exceptions the modelled code can raise. *)
Inductive exn :=
| JSONDecodeError
| RecursionError
| ValueError
| KeyError
| TypeError
| OSError.

(** The library functions the program relies on whose results are not
    computed here.  [json_loads] is the JSON decoder, [None] where it raises;
    [json_error] is the exception it raises there: [JSONDecodeError] for a
    text that is no JSON, [RecursionError] for one nested too deep,
    [ValueError] for an integer of more digits than the interpreter
    converts.  [float_repr] is the text [str] gives for a float. *)
Record runtime := {
  json_loads : string -> option json;
  json_error : string -> exn;
  float_repr : float -> string
}.

Definition float_is_zero (f : float) : bool :=
  match f with
  | S754_zero _ => true
  | _ => false
  end.

(** [v == 0] for a decoded JSON value [v]: numbers compare by value, [False]
    equals [0], and every other object is unequal to [0]. *)
Definition eq_zero (v : json) : bool :=
  match v with
  | JBool b => negb b
  | JInt z => z =? 0
  | JFloat f => float_is_zero f
  | _ => false
  end.

Fixpoint dict_get (d : list (string * json)) (key : string) : option json :=
  match d with
  | [] => None
  | (k, v) :: rest => if String.eqb k key then Some v else dict_get rest key
  end.

(** [data[key]] with a string key: only a [dict] can be indexed by a
    string. *)
Definition subscript (data : json) (key : string) : json + exn :=
  match data with
  | JDict d =>
      match dict_get d key with
      | Some v => inl v
      | None => inr KeyError
      end
  | _ => inr TypeError
  end.

(** [str(z)] for an [int]. *)
Definition str_int (z : Z) : string := NilZero.string_of_int (Z.to_int z).

Definition dquote : string := String (ascii_of_nat 34) EmptyString.

(** [json.dumps({"result": {"status": status}})] with the default
    separators. *)
Definition json_dumps_result (status : Z) : string :=
  ("{" ++ dquote ++ "result" ++ dquote ++ ": {"
       ++ dquote ++ "status" ++ dquote ++ ": " ++ str_int status ++ "}}")%string.

End Py.

(** ** The [csv] writer, default dialect *)

Module Csv.
Import Py.

Definition comma : ascii := ascii_of_nat 44.
Definition quotechar : ascii := ascii_of_nat 34.
Definition cr : ascii := ascii_of_nat 13.
Definition lf : ascii := ascii_of_nat 10.

Definition lineterminator : string := String cr (String lf EmptyString).

Definition special (c : ascii) : bool :=
  Ascii.eqb c comma || Ascii.eqb c quotechar || Ascii.eqb c cr || Ascii.eqb c lf.

Fixpoint needs_quotes (s : string) : bool :=
  match s with
  | EmptyString => false
  | String c rest => special c || needs_quotes rest
  end.

Fixpoint double_quotes (s : string) : string :=
  match s with
  | EmptyString => EmptyString
  | String c rest =>
      if Ascii.eqb c quotechar
      then String quotechar (String quotechar (double_quotes rest))
      else String c (double_quotes rest)
  end.

(** [QUOTE_MINIMAL]: a field is quoted only when it holds the delimiter,
    the quote character or a line-terminator character. *)
Definition quote_minimal (s : string) : string :=
  if needs_quotes s
  then String quotechar (double_quotes s ++ String quotechar EmptyString)%string
  else s.

Section Writer.
Variable rt : runtime.

(** The text of a field before quoting: [None] is written as the empty
    string, everything else through [str]. *)
Definition field_str (v : value) : string :=
  match v with
  | VNone => ""
  | VBool true => "True"
  | VBool false => "False"
  | VInt z => str_int z
  | VFloat f => float_repr rt f
  | VStr s => s
  end.

Definition field (v : value) : string := quote_minimal (field_str v).

Fixpoint join (fields : list string) : string :=
  match fields with
  | [] => ""
  | [f] => f
  | f :: rest => (f ++ String comma (join rest))%string
  end.

(** The line [writer.writerow(row)] emits.  A record that would be empty
    although it has a field is written as an empty quoted field. *)
Definition writerow_text (row : list value) : string :=
  let body := join (map field row) in
  match row, body with
  | _ :: _, EmptyString =>
      String quotechar (String quotechar lineterminator)
  | _, _ => (body ++ lineterminator)%string
  end.

End Writer.

End Csv.

(** ** The application object and its surroundings *)

Definition SET_CRASH_EVENT_TOPIC : string := "crashdetect/crashed".
Definition SET_CRASH_RESPONSE_TOPIC : string := "crashdetect/crashed/response".
Definition CSV_FILE_NAME_TOPIC : string := "vehicle_data.csv".

Import Py.

(** A sample is the five-element list [temp] built by [timer_for_csv]. *)
Abbreviation sample := (list value).

(** The instance fields of [DataStorageApp]; [storage] is the deque, oldest
    sample first. *)
Record DataStorageApp := mkApp {
  distance : value;
  accel : value;
  speed : value;
  displacement : value;
  storage : list sample
}.

(** [DataStorageApp.__init__]. *)
Definition init : DataStorageApp :=
  {| distance := VInt 0;
     accel := VInt 0;
     speed := VInt 0;
     displacement := VInt 0;
     storage := [] |}.

(** *** The deque operations the program uses *)

Module Deque.

(** Used on a deque of 300 elements only, where it cannot raise. *)
Definition popleft {A} (d : list A) : list A := tl d.

Definition append {A} (d : list A) (x : A) : list A := d ++ [x].

Definition clear {A} (d : list A) : list A := [].

End Deque.

(** Lines 89-92 of [timer_for_csv]: drop the oldest sample when the deque
    holds exactly 300, then append. *)
Definition store_sample (d : list sample) (temp : sample) : list sample :=
  let d := if (List.length d =? 300)%nat then Deque.popleft d else d in
  Deque.append d temp.

(** The deque after a sequence of such insertions. *)
Definition store_samples (d : list sample) (temps : list sample) : list sample :=
  fold_left store_sample temps d.

(** What the coroutines act on besides the application object: the content
    of [vehicle_data.csv] ([None] while the file does not exist), the messages
    handed to [publish_event] as (topic, payload) pairs, oldest first, and
    the lines sent to the logger. *)
Record world := mkWorld {
  csvfile : option string;
  published : list (string * string);
  logged : list string
}.

Record sys := mkSys {
  app : DataStorageApp;
  env : world
}.

(** How the storage behaves during one dump: it works, [open] raises,
    the [k]-th call of [writerow] raises (the header row is call 0), or the
    flush on leaving the [with] block raises.  Each failure is an [OSError]. *)
Inductive fault :=
| NoFault
| OpenFails
| WriteFails (k : nat)
| CloseFails.

(** ** A state-and-exception monad

    A raised exception leaves the mutations made before it in place, as in
    Python. *)

Module Co.

Inductive result (A : Type) :=
| Val (a : A)
| Raise (e : exn).
Arguments Val {A} a.
Arguments Raise {A} e.

Definition M (A : Type) : Type := sys -> result A * sys.

Definition ret {A} (a : A) : M A := fun s => (Val a, s).

Definition bind {A B} (m : M A) (k : A -> M B) : M B :=
  fun s =>
    match m s with
    | (Val a, s') => k a s'
    | (Raise e, s') => (Raise e, s')
    end.

Definition raise {A} (e : exn) : M A := fun s => (Raise e, s).

Definition gets {A} (f : DataStorageApp -> A) : M A :=
  fun s => (Val (f (app s)), s).

Definition modify_app (f : DataStorageApp -> DataStorageApp) : M unit :=
  fun s => (Val tt, {| app := f (app s); env := env s |}).

Definition modify_env (f : world -> world) : M unit :=
  fun s => (Val tt, {| app := app s; env := f (env s) |}).

(** [for x in xs: body(x)], the index of the iteration passed along. *)
Fixpoint for_each {A} (k : nat) (xs : list A) (body : nat -> A -> M unit)
  : M unit :=
  match xs with
  | [] => ret tt
  | x :: rest => bind (body k x) (fun _ => for_each (S k) rest body)
  end.

(** [try: body finally: cleanup], the shape of a [with] block. *)
Definition finally {A} (body : M A) (cleanup : M unit) : M A :=
  fun s =>
    match body s with
    | (Val a, s') =>
        match cleanup s' with
        | (Val _, s'') => (Val a, s'')
        | (Raise e, s'') => (Raise e, s'')
        end
    | (Raise e, s') =>
        match cleanup s' with
        | (Val _, s'') => (Raise e, s'')
        | (Raise e', s'') => (Raise e', s'')
        end
    end.

End Co.

Import Co.

Notation "x <- m ;; k" := (bind m (fun x => k))
  (at level 61, m at next level, right associativity).
Notation "m ;; k" := (bind m (fun _ => k))
  (at level 61, right associativity).

(** ** Collaborators: logger, file, message bus, signal bus *)

Definition logger_info (msg : string) : M unit :=
  modify_env (fun w =>
    {| csvfile := csvfile w; published := published w;
       logged := logged w ++ [msg] |}).

(** [open(CSV_FILE_NAME_TOPIC, "w", newline="")]: the file is created or
    truncated. *)
Definition open_w (io : fault) : M unit :=
  match io with
  | OpenFails => raise OSError
  | _ =>
      modify_env (fun w =>
        {| csvfile := Some ""; published := published w;
           logged := logged w |})
  end.

(** The file object takes [text].  The file of the model holds all text
    taken so far; after a dump that ends in [OSError] the real file holds
    what was flushed of it, a prefix the model does not determine, and no
    property below speaks about the file on that path unless [open] itself
    failed. *)
Definition file_write (text : string) : M unit :=
  modify_env (fun w =>
    {| csvfile := Some (match csvfile w with
                        | Some old => old ++ text
                        | None => text
                        end)%string;
       published := published w;
       logged := logged w |}).

(** [writer.writerow(row)] as call number [k] on this writer. *)
Definition writerow (rt : runtime) (io : fault) (k : nat) (row : list value)
  : M unit :=
  match io with
  | WriteFails j =>
      if (j =? k)%nat then raise OSError
      else file_write (Csv.writerow_text rt row)
  | _ => file_write (Csv.writerow_text rt row)
  end.

(** Leaving the [with] block closes the file. *)
Definition close (io : fault) : M unit :=
  match io with
  | CloseFails => raise OSError
  | _ => ret tt
  end.

Definition publish_event (topic payload : string) : M unit :=
  modify_env (fun w =>
    {| csvfile := csvfile w;
       published := published w ++ [(topic, payload)];
       logged := logged w |}).

(** The four subscribed data points. *)
Inductive datapoint :=
| IsWarning
| Longitudinal
| Speed
| Displacement.

Definition datapoint_eqb (a b : datapoint) : bool :=
  match a, b with
  | IsWarning, IsWarning
  | Longitudinal, Longitudinal
  | Speed, Speed
  | Displacement, Displacement => true
  | _, _ => false
  end.

(** A [DataPointReply]: the data points of one notification with their
    values. *)
Definition DataPointReply := list (datapoint * value).

(** [data.get(point).value]; a data point the reply does not hold raises. *)
Fixpoint reply_get (data : DataPointReply) (point : datapoint) : M value :=
  match data with
  | [] => raise KeyError
  | (p, v) :: rest =>
      if datapoint_eqb p point then ret v else reply_get rest point
  end.

(** ** The methods of [DataStorageApp] *)

Definition on_distance_change (data : DataPointReply) : M unit :=
  v <- reply_get data IsWarning ;;
  modify_app (fun a =>
    {| distance := v; accel := accel a; speed := speed a;
       displacement := displacement a; storage := storage a |}).

Definition on_accel_change (data : DataPointReply) : M unit :=
  v <- reply_get data Longitudinal ;;
  modify_app (fun a =>
    {| distance := distance a; accel := v; speed := speed a;
       displacement := displacement a; storage := storage a |}).

Definition on_speed_change (data : DataPointReply) : M unit :=
  v <- reply_get data Speed ;;
  modify_app (fun a =>
    {| distance := distance a; accel := accel a; speed := v;
       displacement := displacement a; storage := storage a |}).

Definition on_displacement_change (data : DataPointReply) : M unit :=
  v <- reply_get data Displacement ;;
  modify_app (fun a =>
    {| distance := distance a; accel := accel a; speed := speed a;
       displacement := v; storage := storage a |}).

Definition set_storage (d : list sample) : M unit :=
  modify_app (fun a =>
    {| distance := distance a; accel := accel a; speed := speed a;
       displacement := displacement a; storage := d |}).

(** One iteration of the loop of [timer_for_csv]; [now] is what
    [time.time()] returns in it.  The [time.sleep(0.1)] that ends the
    iteration changes nothing the model keeps. *)
Definition timer_iteration (now : float) : M unit :=
  d <- gets distance ;;
  a <- gets accel ;;
  s <- gets speed ;;
  p <- gets displacement ;;
  let temp := [VFloat now; d; a; s; p] in
  st <- gets storage ;;
  set_storage (store_sample st temp).

(** The loop of [timer_for_csv] run for as many iterations as there are
    clock readings; the loop itself has no exit. *)
Fixpoint timer_for_csv (clock : list float) : M unit :=
  match clock with
  | [] => ret tt
  | now :: later => timer_iteration now ;; timer_for_csv later
  end.

Definition set_response (status : Z) : M unit :=
  publish_event SET_CRASH_RESPONSE_TOPIC (json_dumps_result status).

Definition header : list value :=
  [VStr "timestamp"; VStr "distance"; VStr "accel"; VStr "speed";
   VStr "displacement"].

(** Lines 105-106: the loop over the deque that writes one row per sample;
    [k] is the number of rows written before it. *)
Definition write_entries (rt : runtime) (io : fault) (k : nat) : M unit :=
  entries <- gets storage ;;
  for_each k entries (writerow rt io).

(** Lines 102-106: the [with] block. *)
Definition write_csv (rt : runtime) (io : fault) : M unit :=
  open_w io ;;
  finally
    (writerow rt io 0 header ;;
     write_entries rt io 1)
    (close io).

Definition json_loads_m (rt : runtime) (data_str : string) : M json :=
  match json_loads rt data_str with
  | Some v => ret v
  | None => raise (json_error rt data_str)
  end.

Definition subscript_m (data : json) (key : string) : M json :=
  match subscript data key with
  | inl v => ret v
  | inr e => raise e
  end.

Definition on_crash_event_received (rt : runtime) (io : fault)
  (data_str : string) : M unit :=
  logger_info "Data Storaging..." ;;
  data <- json_loads_m rt data_str ;;
  status <- subscript_m data "status" ;;
  if eq_zero status then ret tt
  else
    logger_info "Data Storaging..." ;;
    write_csv rt io ;;
    st <- gets storage ;;
    set_storage (Deque.clear st) ;;
    set_response 0.

(** ** The application as a machine driven by events

    The machine takes each handler, and each iteration of the timer loop,
    as one step, and accepts the steps in any order.  Coroutines of one
    asyncio event loop hand over control only at an [await]; the signal
    handlers and the body of the timer loop hold none, and
    [on_crash_event_received] awaits only in its last statement.  On one
    such loop the program runs fewer orders than the machine: the timer loop
    has no [await] and [on_start] awaits it, so no handler runs once
    sampling has started.  What holds of every run of the machine holds of
    those; a run of the machine need not be one of the program.  Whether
    the SDK calls a handler from another thread, inside a step, is not
    modelled.

    [step] keeps the state a handler leaves behind and drops its outcome;
    what the caller of a handler does with an exception is not part of the
    program's source and no property below speaks about it. *)

Inductive event :=
| DistanceChange (data : DataPointReply)
| AccelChange (data : DataPointReply)
| SpeedChange (data : DataPointReply)
| DisplacementChange (data : DataPointReply)
| TimerTick (now : float)
| CrashEvent (io : fault) (data_str : string).

Definition handle (rt : runtime) (ev : event) : M unit :=
  match ev with
  | DistanceChange data => on_distance_change data
  | AccelChange data => on_accel_change data
  | SpeedChange data => on_speed_change data
  | DisplacementChange data => on_displacement_change data
  | TimerTick now => timer_iteration now
  | CrashEvent io data_str => on_crash_event_received rt io data_str
  end.

Definition step (rt : runtime) (s : sys) (ev : event) : sys :=
  snd (handle rt ev s).

Definition run (rt : runtime) (evs : list event) (s : sys) : sys :=
  fold_left (step rt) evs s.

Definition is_crash (ev : event) : bool :=
  match ev with
  | CrashEvent _ _ => true
  | _ => false
  end.

(** A stretch of events without a crash event. *)
Definition sampling (evs : list event) : bool :=
  forallb (fun ev => negb (is_crash ev)) evs.

(** The list [temp] an iteration of the timer loop builds at time [now]. *)
Definition reading (now : float) (a : DataStorageApp) : sample :=
  [VFloat now; distance a; accel a; speed a; displacement a].

(** The samples the timer loop builds along a sequence of events, in the
    order it builds them. *)
Fixpoint sampled (rt : runtime) (evs : list event) (s : sys) : list sample :=
  match evs with
  | [] => []
  | ev :: rest =>
      match ev with
      | TimerTick now => [reading now (app s)]
      | _ => []
      end ++ sampled rt rest (step rt s ev)
  end.

(** The text of a CSV file made of the given rows. *)
Fixpoint csv_text (rt : runtime) (rows : list (list value)) : string :=
  match rows with
  | [] => ""
  | row :: rest => (Csv.writerow_text rt row ++ csv_text rt rest)%string
  end.

(** Whether the fault shows during a dump of [n] samples: a failing
    [writerow] call must be one of the [n + 1] calls made. *)
Definition strikes (io : fault) (n : nat) : bool :=
  match io with
  | NoFault => false
  | OpenFails => true
  | WriteFails k => (k <=? n)%nat
  | CloseFails => true
  end.

(** No call of [writerow] numbered from [j] up to, not including, [j + n]
    is the one the fault hits. *)
Definition spares (io : fault) (j n : nat) : Prop :=
  match io with
  | WriteFails k => (k < j \/ j + n <= k)%nat
  | _ => True
  end.

(** The system as a successful [open] leaves it: the file is empty. *)
Definition opened (s : sys) : sys :=
  {| app := app s;
     env := {| csvfile := Some "";
               published := published (env s);
               logged := logged (env s) |} |}.

Definition fault_eq_dec (a b : fault) : {a = b} + {a <> b}.
Proof. decide equality. apply Nat.eq_dec. Defined.

(** The system once the crash handler has logged its first line. *)
Definition entered (s : sys) : sys := snd (logger_info "Data Storaging..." s).

(** What the handler reads as the status of a trigger payload: the value
    under [status] when the payload decodes to a [dict] that has the key.
    There is none when the payload is no JSON text, or decodes to something
    else than a [dict], or to a [dict] without the key. *)
Definition trigger_status (rt : runtime) (data_str : string) : option json :=
  match json_loads rt data_str with
  | Some (JDict d) => dict_get d "status"
  | _ => None
  end.

(** The JSON values that are numbers to Python: [int], [float] and [bool]. *)
Definition numeric (v : json) : bool :=
  match v with
  | JBool _ | JInt _ | JFloat _ => true
  | _ => false
  end.

(** The content of the CSV file, empty when there is no file. *)
Definition content (w : world) : string :=
  match csvfile w with
  | Some text => text
  | None => ""
  end.

(** ** Concrete inputs *)

Module Demo.

(** The payload [{"status": v}] for a JSON text [v]. *)
Definition status_payload (v : string) : string :=
  ("{" ++ dquote ++ "status" ++ dquote ++ ": " ++ v ++ "}")%string.

(** [json.loads] on the payloads the examples use.  The one text among
    them that the decoder rejects is the bare word crash, for which it
    raises [JSONDecodeError]. *)
Definition loads (data_str : string) : option json :=
  if String.eqb data_str (status_payload "1")
  then Some (JDict [("status", JInt 1)])
  else if String.eqb data_str (status_payload "0")
  then Some (JDict [("status", JInt 0)])
  else if String.eqb data_str (status_payload "null")
  then Some (JDict [("status", JNull)])
  else if String.eqb data_str "{}"
  then Some (JDict [])
  else None.

(** The float of a whole number [1 <= p < 2^53], mantissa normalised to
    53 bits. *)
Definition float_of_pos (p : positive) : float :=
  let k := Z.log2 (Zpos p) in
  S754_finite false (Z.to_pos (Z.shiftl (Zpos p) (52 - k))) (k - 52).

(** [repr] on zeros and on whole floats below [10^16], which print as
    their integer followed by [.0]; the examples use no other float. *)
Definition repr (f : float) : string :=
  match f with
  | S754_zero false => "0.0"
  | S754_zero true => "-0.0"
  | S754_finite sign m e =>
      ((if sign then "-" else "")
         ++ str_int (Z.shiftl (Zpos m) e) ++ ".0")%string
  | S754_infinity false => "inf"
  | S754_infinity true => "-inf"
  | S754_nan => "nan"
  end.

Definition rt : runtime :=
  {| json_loads := loads;
     json_error := fun _ => JSONDecodeError;
     float_repr := repr |}.

(** The sample taken at time [n + 1] while every signal still has its
    initial value. *)
Definition sample_at (n : nat) : sample :=
  reading (float_of_pos (Pos.of_succ_nat n)) init.

Definition samples (n : nat) : list sample := map sample_at (seq 0 n).

Definition ticks (from n : nat) : list event :=
  map (fun i => TimerTick (float_of_pos (Pos.of_succ_nat i))) (seq from n).

Definition empty_world : world :=
  {| csvfile := None; published := []; logged := [] |}.

(** The application holding the first [n] samples. *)
Definition loaded (n : nat) : sys :=
  {| app := {| distance := VInt 0; accel := VInt 0; speed := VInt 0;
               displacement := VInt 0; storage := samples n |};
     env := empty_world |}.

End Demo.

(** ** The subscriptions of [on_start] and further vocabulary *)

(** Lines 56-63 of [on_start]: the callback subscribed on each data point,
    in the order of the calls. *)
Definition subscriptions : list (datapoint * (DataPointReply -> M unit)) :=
  [(IsWarning, on_distance_change);
   (Longitudinal, on_accel_change);
   (Speed, on_speed_change);
   (Displacement, on_displacement_change)].

Fixpoint callback_for (subs : list (datapoint * (DataPointReply -> M unit)))
  (point : datapoint) : option (DataPointReply -> M unit) :=
  match subs with
  | [] => None
  | (p, callback) :: rest =>
      if datapoint_eqb p point then Some callback else callback_for rest point
  end.

(** The signal bus reporting value [v] for [point]: the callback subscribed
    on the point is called with a reply that holds the point. *)
Definition notify (point : datapoint) (v : value) : M unit :=
  match callback_for subscriptions point with
  | Some callback => callback [(point, v)]
  | None => ret tt
  end.

(** The field of the application object that caches a data point. *)
Definition cached (point : datapoint) (a : DataStorageApp) : value :=
  match point with
  | IsWarning => distance a
  | Longitudinal => accel a
  | Speed => speed a
  | Displacement => displacement a
  end.

Definition is_signal_change (ev : event) : bool :=
  match ev with
  | DistanceChange _ | AccelChange _ | SpeedChange _
  | DisplacementChange _ => true
  | _ => false
  end.

(** The message [set_response(0)] publishes. *)
Definition response : string * string :=
  (SET_CRASH_RESPONSE_TOPIC, json_dumps_result 0).

(** A list of five fields that starts with a float. *)
Definition five_fields (row : sample) : bool :=
  match row with
  | [VFloat _; _; _; _; _] => true
  | _ => false
  end.

(** * Properties *)

(** ** The deque under [store_sample] *)

Section Ring.

Lemma store_sample_tail (d : list sample) (temp : sample) :
  (List.length d <= 300)%nat ->
  store_sample d temp = skipn (List.length d + 1 - 300) (d ++ [temp]).
Proof.
  intros Hlen. unfold store_sample, Deque.append, Deque.popleft.
  destruct (Nat.eqb_spec (List.length d) 300) as [E | NE].
  - replace (List.length d + 1 - 300)%nat with 1%nat by lia.
    destruct d as [| x d']; [discriminate E | reflexivity].
  - replace (List.length d + 1 - 300)%nat with 0%nat by lia.
    reflexivity.
Qed.

Lemma store_sample_length (d : list sample) (temp : sample) :
  (List.length d <= 300)%nat ->
  (List.length (store_sample d temp) <= 300)%nat.
Proof.
  intros Hlen. rewrite store_sample_tail by assumption.
  rewrite length_skipn, length_app. simpl. lia.
Qed.

Lemma skipn_app_le {A} (k : nat) (l1 l2 : list A) :
  (k <= List.length l1)%nat -> skipn k l1 ++ l2 = skipn k (l1 ++ l2).
Proof.
  intros Hk. rewrite skipn_app.
  replace (k - List.length l1)%nat with 0%nat by lia. reflexivity.
Qed.

(** The deque always holds the newest 300 of everything put into it. *)
Lemma store_samples_tail (temps : list sample) :
  forall d : list sample,
    (List.length d <= 300)%nat ->
    store_samples d temps
    = skipn (List.length d + List.length temps - 300) (d ++ temps).
Proof.
  induction temps as [| x temps IH]; intros d Hlen.
  - simpl. rewrite app_nil_r.
    replace (List.length d + 0 - 300)%nat with 0%nat by lia. reflexivity.
  - change (store_samples d (x :: temps))
      with (store_samples (store_sample d x) temps).
    rewrite IH by (apply store_sample_length; assumption).
    rewrite store_sample_tail by assumption.
    rewrite length_skipn, length_app. simpl List.length.
    rewrite skipn_app_le by (rewrite length_app; simpl; lia).
    rewrite skipn_skipn, <- app_assoc. simpl.
    f_equal. lia.
Qed.

Lemma store_samples_length (temps d : list sample) :
  (List.length d <= 300)%nat ->
  List.length (store_samples d temps)
  = Nat.min 300 (List.length d + List.length temps).
Proof.
  intros Hlen. rewrite store_samples_tail by assumption.
  rewrite length_skipn, length_app. lia.
Qed.

Lemma store_samples_app (d xs ys : list sample) :
  store_samples d (xs ++ ys) = store_samples (store_samples d xs) ys.
Proof. unfold store_samples. apply fold_left_app. Qed.

End Ring.

(** ** Steps of the machine *)

Section Steps.

Variable rt : runtime.

Lemma reply_get_cases (data : DataPointReply) (point : datapoint) (s : sys) :
  (exists v, reply_get data point s = (Val v, s))
  \/ reply_get data point s = (Raise KeyError, s).
Proof.
  induction data as [| [p v] rest IH]; simpl.
  - right. reflexivity.
  - destruct (datapoint_eqb p point); [left; exists v; reflexivity | exact IH].
Qed.

Lemma timer_iteration_spec (now : float) (s : sys) :
  timer_iteration now s
  = (Val tt,
     {| app := {| distance := distance (app s);
                  accel := accel (app s);
                  speed := speed (app s);
                  displacement := displacement (app s);
                  storage := store_sample (storage (app s))
                               (reading now (app s)) |};
        env := env s |}).
Proof. reflexivity. Qed.

(** A step that is no crash event leaves the surroundings alone and puts
    into the deque exactly what the timer built during it. *)
Lemma step_sampling (s : sys) (ev : event) :
  is_crash ev = false ->
  env (step rt s ev) = env s
  /\ storage (app (step rt s ev))
     = store_samples (storage (app s)) (sampled rt [ev] s).
Proof.
  intros Hev. unfold step.
  destruct ev as [data | data | data | data | now | io data_str];
    try discriminate Hev; simpl handle;
    try (unfold on_distance_change, on_accel_change, on_speed_change,
           on_displacement_change, bind;
         match goal with
         | |- context [reply_get ?d ?p ?s] =>
             destruct (reply_get_cases d p s) as [[v ->] | ->]
         end; simpl; split; reflexivity).
  rewrite timer_iteration_spec. simpl. split; reflexivity.
Qed.

Lemma sampled_app (evs1 evs2 : list event) :
  forall s,
    sampled rt (evs1 ++ evs2) s
    = sampled rt evs1 s ++ sampled rt evs2 (run rt evs1 s).
Proof.
  induction evs1 as [| ev evs1 IH]; intros s; simpl.
  - reflexivity.
  - rewrite IH, app_assoc. reflexivity.
Qed.

Lemma run_app (evs1 evs2 : list event) (s : sys) :
  run rt (evs1 ++ evs2) s = run rt evs2 (run rt evs1 s).
Proof. unfold run. apply fold_left_app. Qed.

Lemma run_sampling (evs : list event) :
  forall s,
    sampling evs = true ->
    env (run rt evs s) = env s
    /\ storage (app (run rt evs s))
       = store_samples (storage (app s)) (sampled rt evs s).
Proof.
  induction evs as [| ev evs IH]; intros s Hs.
  - split; reflexivity.
  - simpl in Hs. apply andb_prop in Hs. destruct Hs as [Hev Hrest].
    apply negb_true_iff in Hev.
    destruct (step_sampling s ev Hev) as [Henv Hsto].
    destruct (IH (step rt s ev) Hrest) as [Henv' Hsto'].
    change (run rt (ev :: evs) s) with (run rt evs (step rt s ev)).
    split; [congruence |].
    rewrite Hsto', Hsto.
    change (ev :: evs) with ([ev] ++ evs).
    rewrite sampled_app, store_samples_app. reflexivity.
Qed.

Lemma sampling_firstn (k : nat) (evs : list event) :
  sampling evs = true -> sampling (firstn k evs) = true.
Proof.
  unfold sampling. rewrite !forallb_forall.
  intros H ev Hin. apply H.
  rewrite <- (firstn_skipn k evs). apply in_or_app. left. exact Hin.
Qed.

End Steps.

(** ** The ring buffer (claims C1 and C8) *)

(** C1.  Along every sequence of sampler iterations and signal updates that
    starts on a deque of at most 300 samples, the deque holds at most 300
    samples at every point; once 300 or more samples have been appended it
    holds exactly 300, and they are the 300 most recently appended samples,
    oldest first. *)
Theorem ring_buffer_holds_newest_300
  (rt : runtime) (evs : list event) (s : sys) :
  sampling evs = true ->
  (List.length (storage (app s)) <= 300)%nat ->
  (forall k : nat,
      (List.length (storage (app (run rt (firstn k evs) s))) <= 300)%nat)
  /\ ((300 <= List.length (sampled rt evs s))%nat ->
      List.length (storage (app (run rt evs s))) = 300%nat
      /\ storage (app (run rt evs s))
         = skipn (List.length (sampled rt evs s) - 300) (sampled rt evs s)).
Proof.
  intros Hs Hlen. split.
  - intros k.
    destruct (run_sampling rt (firstn k evs) s (sampling_firstn k evs Hs))
      as [_ ->].
    rewrite store_samples_length by assumption. lia.
  - intros Hn.
    destruct (run_sampling rt evs s Hs) as [_ ->].
    split.
    + rewrite store_samples_length by assumption. lia.
    + rewrite store_samples_tail by assumption.
      replace (List.length (storage (app s))
               + List.length (sampled rt evs s) - 300)%nat
        with ((List.length (sampled rt evs s) - 300)
              + List.length (storage (app s)))%nat by lia.
      rewrite <- skipn_skipn, skipn_app, skipn_all, Nat.sub_diag.
      reflexivity.
Qed.

Lemma ring_buffer_holds_newest_300_witness :
  sampling (Demo.ticks 0 305) = true
  /\ (List.length (storage (app (Demo.loaded 0))) <= 300)%nat
  /\ List.length
       (storage (app (run Demo.rt (Demo.ticks 0 305) (Demo.loaded 0))))
     = 300%nat.
Proof.
  split; [reflexivity |].
  split; [simpl; lia |].
  apply (ring_buffer_holds_newest_300 Demo.rt (Demo.ticks 0 305)
           (Demo.loaded 0)).
  - reflexivity.
  - simpl. lia.
  - vm_compute. lia.
Defined.

(** C8.  Starting from the empty deque, as long as no more than 300 samples
    have been appended nothing is evicted: at every point the deque holds
    every sample appended so far, oldest first. *)
Theorem no_eviction_up_to_capacity
  (rt : runtime) (evs : list event) (s : sys) :
  sampling evs = true ->
  storage (app s) = [] ->
  (List.length (sampled rt evs s) <= 300)%nat ->
  forall k : nat,
    storage (app (run rt (firstn k evs) s)) = sampled rt (firstn k evs) s.
Proof.
  intros Hs Hempty Hn k.
  destruct (run_sampling rt (firstn k evs) s (sampling_firstn k evs Hs))
    as [_ ->].
  rewrite Hempty.
  rewrite store_samples_tail by (simpl; lia).
  assert (Hk : (List.length (sampled rt (firstn k evs) s) <= 300)%nat).
  { rewrite <- (firstn_skipn k evs), sampled_app, length_app in Hn. lia. }
  simpl.
  replace (List.length (sampled rt (firstn k evs) s) - 300)%nat
    with 0%nat by lia.
  reflexivity.
Qed.

Lemma no_eviction_up_to_capacity_witness :
  sampling (Demo.ticks 0 300) = true
  /\ storage (app (Demo.loaded 0)) = []
  /\ (List.length (sampled Demo.rt (Demo.ticks 0 300) (Demo.loaded 0))
      <= 300)%nat
  /\ storage (app (run Demo.rt (firstn 300 (Demo.ticks 0 300)) (Demo.loaded 0)))
     = sampled Demo.rt (firstn 300 (Demo.ticks 0 300)) (Demo.loaded 0).
Proof.
  split; [reflexivity |].
  split; [reflexivity |].
  split; [vm_compute; lia |].
  apply (no_eviction_up_to_capacity Demo.rt (Demo.ticks 0 300)
           (Demo.loaded 0)).
  - reflexivity.
  - reflexivity.
  - vm_compute. lia.
Defined.

(** ** Writing the file *)

Lemma string_app_nil_r (s : string) : (s ++ "")%string = s.
Proof. induction s as [| c s IH]; simpl; [reflexivity | now rewrite IH]. Qed.

Lemma string_app_assoc (s1 s2 s3 : string) :
  ((s1 ++ s2) ++ s3)%string = (s1 ++ (s2 ++ s3))%string.
Proof. induction s1 as [| c s1 IH]; simpl; [reflexivity | now rewrite IH]. Qed.

Lemma csv_text_app (rt : runtime) (rows1 rows2 : list (list value)) :
  csv_text rt (rows1 ++ rows2)
  = (csv_text rt rows1 ++ csv_text rt rows2)%string.
Proof.
  induction rows1 as [| row rows1 IH]; simpl.
  - reflexivity.
  - rewrite IH, string_app_assoc. reflexivity.
Qed.

Section Dump.

Variable rt : runtime.

Lemma writerow_spared (io : fault) (k : nat) (row : list value) (s : sys) :
  spares io k 1 ->
  writerow rt io k row s = file_write (Csv.writerow_text rt row) s.
Proof.
  destruct io as [| | j |]; simpl; try reflexivity.
  intros Hj. destruct (Nat.eqb_spec j k); [lia | reflexivity].
Qed.

(** Whatever the fault, a row either gets written or [OSError] is raised,
    and only the file is touched. *)
Lemma writerow_frame (io : fault) (k : nat) (row : list value) (s : sys) :
  (fst (writerow rt io k row s) = Val tt
   \/ fst (writerow rt io k row s) = Raise OSError)
  /\ app (snd (writerow rt io k row s)) = app s
  /\ published (env (snd (writerow rt io k row s))) = published (env s)
  /\ logged (env (snd (writerow rt io k row s))) = logged (env s).
Proof.
  destruct io as [| | j |]; simpl; try (repeat split; left; reflexivity).
  destruct (j =? k)%nat; simpl; repeat split;
    [right | left]; reflexivity.
Qed.

Lemma for_each_writerow_frame (io : fault) (entries : list sample) :
  forall (k : nat) (s : sys),
    (fst (for_each k entries (writerow rt io) s) = Val tt
     \/ fst (for_each k entries (writerow rt io) s) = Raise OSError)
    /\ app (snd (for_each k entries (writerow rt io) s)) = app s
    /\ published (env (snd (for_each k entries (writerow rt io) s)))
       = published (env s)
    /\ logged (env (snd (for_each k entries (writerow rt io) s)))
       = logged (env s).
Proof.
  induction entries as [| entry rest IH]; intros k s.
  - simpl. repeat split. left. reflexivity.
  - simpl. unfold bind.
    destruct (writerow_frame io k entry s) as (Hr & Ha & Hp & Hl).
    destruct (writerow rt io k entry s) as [[[] | e] s1]; simpl in *.
    + destruct (IH (S k) s1) as (Hr' & Ha' & Hp' & Hl').
      repeat split; [exact Hr' | congruence | congruence | congruence].
    + repeat split; assumption.
Qed.

(** Rows the fault spares are appended to the file, in order. *)
Lemma for_each_writerow_ok (io : fault) (entries : list sample) :
  forall (k : nat) (s : sys),
    spares io k (List.length entries) ->
    fst (for_each k entries (writerow rt io) s) = Val tt
    /\ content (env (snd (for_each k entries (writerow rt io) s)))
       = (content (env s) ++ csv_text rt entries)%string.
Proof.
  induction entries as [| entry rest IH]; intros k s Hio.
  - simpl. rewrite string_app_nil_r. split; reflexivity.
  - simpl. unfold bind.
    rewrite writerow_spared
      by (destruct io; simpl in *; try exact I; lia).
    unfold file_write, modify_env at 1. cbv beta iota.
    match goal with
    | |- context [for_each (S k) rest _ ?s1] =>
        destruct (IH (S k) s1) as [Hr Hc]
    end.
    { destruct io; simpl in *; try exact I; lia. }
    split; [exact Hr |].
    etransitivity; [exact Hc |].
    unfold content. simpl.
    destruct (csvfile (env s)); simpl;
      rewrite ?string_app_assoc; reflexivity.
Qed.

(** A fault inside the range of calls raises. *)
Lemma for_each_writerow_fails (j : nat) (entries : list sample) :
  forall (k : nat) (s : sys),
    (k <= j < k + List.length entries)%nat ->
    fst (for_each k entries (writerow rt (WriteFails j)) s) = Raise OSError.
Proof.
  induction entries as [| entry rest IH]; intros k s Hj.
  - simpl in Hj. lia.
  - simpl. unfold bind. simpl writerow.
    destruct (Nat.eqb_spec j k) as [E | NE].
    + reflexivity.
    + simpl. apply IH. simpl in Hj. lia.
Qed.

Lemma for_each_writerow_keeps_file (io : fault) (entries : list sample) :
  forall (k : nat) (s : sys),
    csvfile (env s) <> None ->
    csvfile (env (snd (for_each k entries (writerow rt io) s))) <> None.
Proof.
  induction entries as [| entry rest IH]; intros k s Hopen.
  - exact Hopen.
  - simpl. unfold bind.
    destruct (writerow rt io k entry s) as [[[] | e] s1] eqn:E.
    + apply IH. revert E. unfold writerow, file_write, modify_env, raise.
      destruct io as [| | j |]; try destruct (j =? k)%nat;
        intros E; inversion E; subst; simpl; discriminate.
    + revert E. unfold writerow, file_write, modify_env, raise.
      destruct io as [| | j |]; try destruct (j =? k)%nat;
        intros E; inversion E; subst; simpl; assumption.
Qed.

(** The body of the [with] block makes its [writerow] calls in a row: the
    header as call 0, then the samples. *)
Lemma with_body_rows (io : fault) (s : sys) :
  (writerow rt io 0 header ;; write_entries rt io 1) s
  = for_each 0 (header :: storage (app s)) (writerow rt io) s.
Proof.
  simpl. unfold bind, write_entries, gets.
  destruct (writerow_frame io 0 header s) as (_ & Ha & _).
  destruct (writerow rt io 0 header s) as [[[] | e] s1]; simpl in *.
  - unfold bind. rewrite Ha. reflexivity.
  - reflexivity.
Qed.

Lemma write_csv_opened (io : fault) (s : sys) :
  io <> OpenFails ->
  write_csv rt io s
  = finally (for_each 0 (header :: storage (app s)) (writerow rt io))
      (close io) (opened s).
Proof.
  intros Hio. unfold write_csv, bind at 1.
  assert (Hopen : open_w io s = (Val tt, opened s))
    by (destruct io; try reflexivity; contradiction).
  rewrite Hopen. unfold finally.
  rewrite with_body_rows. reflexivity.
Qed.

Lemma close_cases (io : fault) (s : sys) :
  (io = CloseFails /\ close io s = (Raise OSError, s))
  \/ (io <> CloseFails /\ close io s = (Val tt, s)).
Proof.
  destruct io; [right | right | right | left];
    (split; [try discriminate |]; reflexivity).
Qed.

Lemma write_csv_frame (io : fault) (s : sys) :
  (fst (write_csv rt io s) = Val tt
   \/ fst (write_csv rt io s) = Raise OSError)
  /\ app (snd (write_csv rt io s)) = app s
  /\ published (env (snd (write_csv rt io s))) = published (env s)
  /\ logged (env (snd (write_csv rt io s))) = logged (env s).
Proof.
  destruct (fault_eq_dec io OpenFails) as [-> | Hopen].
  - repeat split. right. reflexivity.
  - rewrite write_csv_opened by assumption. unfold finally.
    destruct (for_each_writerow_frame io (header :: storage (app s)) 0
                (opened s)) as (Hr & Ha & Hp & Hl).
    revert Hr Ha Hp Hl.
    destruct (for_each 0 (header :: storage (app s)) (writerow rt io)
                (opened s)) as [r s1].
    cbn [fst snd]. intros Hr Ha Hp Hl.
    destruct (close_cases io s1) as [[_ ->] | [_ ->]];
      destruct Hr as [-> | ->]; cbn [fst snd];
      repeat split; try assumption;
      try (left; reflexivity); right; reflexivity.
Qed.

(** A dump the fault does not reach replaces the file by the header row
    and one row per sample. *)
Lemma write_csv_ok (io : fault) (s : sys) :
  strikes io (List.length (storage (app s))) = false ->
  fst (write_csv rt io s) = Val tt
  /\ csvfile (env (snd (write_csv rt io s)))
     = Some (csv_text rt (header :: storage (app s))).
Proof.
  intros Hio.
  assert (Hopen : io <> OpenFails) by (intros ->; discriminate Hio).
  assert (Hclose : io <> CloseFails) by (intros ->; discriminate Hio).
  rewrite write_csv_opened by assumption. unfold finally.
  destruct (for_each_writerow_ok io (header :: storage (app s)) 0
              (opened s)) as [Hr Hc].
  { destruct io as [| | j |]; simpl in *; try exact I.
    apply Nat.leb_gt in Hio. lia. }
  pose proof (for_each_writerow_keeps_file io (header :: storage (app s)) 0
                (opened s)) as Hk.
  revert Hr Hc Hk.
  destruct (for_each 0 (header :: storage (app s)) (writerow rt io)
              (opened s)) as [r s1].
  cbn [fst snd]. intros Hr Hc Hk. subst r.
  destruct (close_cases io s1) as [[E _] | [_ ->]]; [contradiction |].
  cbn [fst snd]. split; [reflexivity |].
  unfold content in Hc. change (csvfile (env (opened s))) with (Some "") in *.
  destruct (csvfile (env s1)) as [text |].
  - rewrite Hc. reflexivity.
  - exfalso. apply Hk; [discriminate | reflexivity].
Qed.

(** A dump the fault reaches raises [OSError]. *)
Lemma write_csv_fails (io : fault) (s : sys) :
  strikes io (List.length (storage (app s))) = true ->
  fst (write_csv rt io s) = Raise OSError.
Proof.
  intros Hio.
  destruct (fault_eq_dec io OpenFails) as [-> | Hopen]; [reflexivity |].
  rewrite write_csv_opened by assumption. unfold finally.
  destruct (for_each_writerow_frame io (header :: storage (app s)) 0
              (opened s)) as (Hr & _).
  pose proof (fun j => for_each_writerow_fails j (header :: storage (app s))
                         0 (opened s)) as Hf.
  revert Hr.
  destruct (for_each 0 (header :: storage (app s)) (writerow rt io)
              (opened s)) as [r s1] eqn:E.
  cbn [fst]. intros Hr.
  destruct (close_cases io s1) as [[_ ->] | [Hclose ->]].
  - destruct Hr as [-> | ->]; reflexivity.
  - destruct io as [| | j |]; try discriminate Hio; try contradiction.
    specialize (Hf j). rewrite E in Hf. cbn [fst] in Hf.
    rewrite Hf; [reflexivity |].
    simpl in Hio. apply Nat.leb_le in Hio. simpl. lia.
Qed.

End Dump.

(** ** The crash handler *)

Section Crash.

Variable rt : runtime.

(** With a status to read, the handler gets as far as comparing it with
    [0]. *)
Lemma crash_handler_status
  (io : fault) (data_str : string) (v : json) (s : sys) :
  trigger_status rt data_str = Some v ->
  on_crash_event_received rt io data_str s
  = (if eq_zero v then ret tt
     else
       logger_info "Data Storaging..." ;;
       write_csv rt io ;;
       st <- gets storage ;;
       set_storage (Deque.clear st) ;;
       set_response 0) (entered s).
Proof.
  unfold trigger_status, on_crash_event_received, json_loads_m.
  destruct (json_loads rt data_str) as [[| | | | | | d] |];
    try discriminate.
  intros Hv. unfold bind at 1 2 3. simpl.
  unfold subscript_m, subscript. rewrite Hv. reflexivity.
Qed.

(** Without one, the handler raises before it compares anything. *)
Lemma crash_handler_no_status (io : fault) (data_str : string) (s : sys) :
  trigger_status rt data_str = None ->
  exists e : exn,
    (e = json_error rt data_str \/ e = TypeError \/ e = KeyError)
    /\ on_crash_event_received rt io data_str s = (Raise e, entered s).
Proof.
  unfold trigger_status, on_crash_event_received, json_loads_m.
  destruct (json_loads rt data_str) as [[| | | | | | d] |]; intros Hv;
    try (exists TypeError; split; [tauto | reflexivity]);
    try (exists (json_error rt data_str); split; [tauto | reflexivity]).
  exists KeyError. split; [tauto |].
  unfold bind at 1 2 3. simpl.
  unfold subscript_m, subscript. rewrite Hv. reflexivity.
Qed.

(** What follows the comparison when the status is not [0], in terms of
    how writing the file ends. *)
Lemma dump_steps (io : fault) (s : sys) :
  (logger_info "Data Storaging..." ;;
   write_csv rt io ;;
   st <- gets storage ;;
   set_storage (Deque.clear st) ;;
   set_response 0) s
  = match write_csv rt io (entered s) with
    | (Val _, s1) =>
        (Val tt,
         {| app := {| distance := distance (app s1);
                      accel := accel (app s1);
                      speed := speed (app s1);
                      displacement := displacement (app s1);
                      storage := [] |};
            env := {| csvfile := csvfile (env s1);
                      published :=
                        published (env s1)
                          ++ [(SET_CRASH_RESPONSE_TOPIC,
                               json_dumps_result 0)];
                      logged := logged (env s1) |} |})
    | (Raise e, s1) => (Raise e, s1)
    end.
Proof.
  unfold bind at 1. unfold logger_info at 1, modify_env at 1.
  cbv beta iota. unfold bind at 1.
  change (write_csv rt io _) with (write_csv rt io (entered s)).
  destruct (write_csv rt io (entered s)) as [[[] | e] s1]; reflexivity.
Qed.

(** A dump the storage lets through: the file is rewritten, the deque
    cleared, the response published, the cached signals kept. *)
Lemma crash_handler_dump
  (io : fault) (data_str : string) (v : json) (s : sys) :
  trigger_status rt data_str = Some v ->
  eq_zero v = false ->
  strikes io (List.length (storage (app s))) = false ->
  let r := on_crash_event_received rt io data_str s in
  fst r = Val tt
  /\ storage (app (snd r)) = []
  /\ (distance (app (snd r)) = distance (app s)
      /\ accel (app (snd r)) = accel (app s)
      /\ speed (app (snd r)) = speed (app s)
      /\ displacement (app (snd r)) = displacement (app s))
  /\ csvfile (env (snd r)) = Some (csv_text rt (header :: storage (app s)))
  /\ published (env (snd r))
     = published (env s)
         ++ [(SET_CRASH_RESPONSE_TOPIC, json_dumps_result 0)].
Proof.
  intros Hv Hnz Hio r. subst r.
  rewrite (crash_handler_status io data_str v s Hv), Hnz, dump_steps.
  set (s0 := entered (entered s)).
  destruct (write_csv_ok rt io s0 Hio) as [Hr Hf].
  destruct (write_csv_frame rt io s0) as (_ & Ha & Hp & _).
  revert Hr Hf Ha Hp.
  destruct (write_csv rt io s0) as [r s1]. cbn [fst snd].
  intros -> Hf Ha Hp.
  cbn [fst snd app env storage distance accel speed displacement
       csvfile published].
  rewrite Ha, Hf, Hp. repeat split; reflexivity.
Qed.

(** A dump during which the storage fails: the handler raises [OSError]
    with the application object and the published messages untouched. *)
Lemma crash_handler_write_fails
  (io : fault) (data_str : string) (v : json) (s : sys) :
  trigger_status rt data_str = Some v ->
  eq_zero v = false ->
  strikes io (List.length (storage (app s))) = true ->
  let r := on_crash_event_received rt io data_str s in
  fst r = Raise OSError
  /\ app (snd r) = app s
  /\ published (env (snd r)) = published (env s).
Proof.
  intros Hv Hnz Hio r. subst r.
  rewrite (crash_handler_status io data_str v s Hv), Hnz, dump_steps.
  set (s0 := entered (entered s)).
  pose proof (write_csv_fails rt io s0 Hio) as Hr.
  destruct (write_csv_frame rt io s0) as (_ & Ha & Hp & _).
  revert Hr Ha Hp.
  destruct (write_csv rt io s0) as [r s1]. cbn [fst snd].
  intros -> Ha Hp.
  cbn [fst snd]. split; [reflexivity |]. split; assumption.
Qed.

End Crash.

(** The deque of a running application never holds more than 300 samples:
    every event keeps the bound. *)
Lemma step_keeps_bound (rt : runtime) (s : sys) (ev : event) :
  (List.length (storage (app s)) <= 300)%nat ->
  (List.length (storage (app (step rt s ev))) <= 300)%nat.
Proof.
  intros Hlen.
  destruct (is_crash ev) eqn:Hev.
  - destruct ev as [| | | | | io data_str]; try discriminate Hev.
    unfold step, handle.
    destruct (trigger_status rt data_str) as [v |] eqn:Hv.
    + destruct (eq_zero v) eqn:Hz.
      * rewrite (crash_handler_status rt io data_str v s Hv), Hz.
        exact Hlen.
      * destruct (strikes io (List.length (storage (app s)))) eqn:Hio.
        -- destruct (crash_handler_write_fails rt io data_str v s Hv Hz Hio)
             as (_ & -> & _).
           exact Hlen.
        -- destruct (crash_handler_dump rt io data_str v s Hv Hz Hio)
             as (_ & -> & _).
           simpl. lia.
    + destruct (crash_handler_no_status rt io data_str s Hv) as (e & _ & ->).
      exact Hlen.
  - destruct (step_sampling rt s ev Hev) as [_ ->].
    rewrite store_samples_length by assumption. lia.
Qed.

Lemma run_keeps_bound (rt : runtime) (evs : list event) :
  forall s : sys,
    (List.length (storage (app s)) <= 300)%nat ->
    (List.length (storage (app (run rt evs s))) <= 300)%nat.
Proof.
  induction evs as [| ev evs IH]; intros s Hlen.
  - exact Hlen.
  - apply (IH (step rt s ev)). apply step_keeps_bound. exact Hlen.
Qed.

(** ** The trigger protocol (claims C2 and C3) *)



(** C3.  A crash event whose status equals 0 is ignored: the handler
    returns with the application object (deque and cached signals) as it
    was, the file untouched and nothing published. *)
Theorem crash_event_status_zero_is_ignored
  (rt : runtime) (io : fault) (data_str : string) (v : json) (s : sys) :
  trigger_status rt data_str = Some v ->
  eq_zero v = true ->
  let r := on_crash_event_received rt io data_str s in
  fst r = Val tt
  /\ app (snd r) = app s
  /\ csvfile (env (snd r)) = csvfile (env s)
  /\ published (env (snd r)) = published (env s).
Proof.
  intros Hv Hz r. subst r.
  rewrite (crash_handler_status rt io data_str v s Hv), Hz.
  repeat split.
Qed.

Lemma crash_event_status_zero_is_ignored_witness :
  trigger_status Demo.rt (Demo.status_payload "0") = Some (JInt 0)
  /\ eq_zero (JInt 0) = true
  /\ app (snd (on_crash_event_received Demo.rt NoFault
                 (Demo.status_payload "0") (Demo.loaded 3)))
     = app (Demo.loaded 3).
Proof.
  split; [reflexivity |].
  split; [reflexivity |].
  apply (crash_event_status_zero_is_ignored Demo.rt NoFault
           (Demo.status_payload "0") (JInt 0) (Demo.loaded 3));
    reflexivity.
Defined.

(** ** The file (claims C7 and C9) *)

(** C7.  A dump that succeeds leaves in the file the header line
    [timestamp,distance,accel,speed,displacement] followed by one line per
    sample of the deque, whatever the file held before: the result is the
    same from any two systems whose deques agree.  The sample the timer loop
    stores is the list of the time and the four cached signals in the order
    of the header, and its line is the text of these five fields in that
    order, separated by commas. *)
Theorem dump_rewrites_the_file_in_column_order
  (rt : runtime) (io : fault) (data_str : string) (v : json) (s : sys) :
  trigger_status rt data_str = Some v ->
  eq_zero v = false ->
  strikes io (List.length (storage (app s))) = false ->
  csvfile (env (snd (on_crash_event_received rt io data_str s)))
  = Some ("timestamp,distance,accel,speed,displacement"
            ++ Csv.lineterminator ++ csv_text rt (storage (app s)))%string
  /\ (forall s' : sys,
         storage (app s') = storage (app s) ->
         csvfile (env (snd (on_crash_event_received rt io data_str s')))
         = csvfile (env (snd (on_crash_event_received rt io data_str s))))
  /\ (forall now : float,
         storage (app (snd (timer_iteration now s)))
         = store_sample (storage (app s))
             [VFloat now; distance (app s); accel (app s); speed (app s);
              displacement (app s)]
         /\ Csv.writerow_text rt
              [VFloat now; distance (app s); accel (app s); speed (app s);
               displacement (app s)]
            = (Csv.field rt (VFloat now) ++ ","
                 ++ Csv.field rt (distance (app s)) ++ ","
                 ++ Csv.field rt (accel (app s)) ++ ","
                 ++ Csv.field rt (speed (app s)) ++ ","
                 ++ Csv.field rt (displacement (app s))
                 ++ Csv.lineterminator)%string).
Proof.
  intros Hv Hnz Hio.
  destruct (crash_handler_dump rt io data_str v s Hv Hnz Hio)
    as (_ & _ & _ & Hf & _).
  split; [| split].
  - rewrite Hf. reflexivity.
  - intros s' Hsame.
    assert (Hio' : strikes io (List.length (storage (app s'))) = false)
      by (rewrite Hsame; exact Hio).
    destruct (crash_handler_dump rt io data_str v s' Hv Hnz Hio')
      as (_ & _ & _ & Hf' & _).
    rewrite Hf, Hf', Hsame. reflexivity.
  - intros now. split; [reflexivity |].
    unfold Csv.writerow_text. cbn [map Csv.join].
    destruct (Csv.field rt (VFloat now)) as [| c t]; cbn [String.append];
      repeat (rewrite string_app_assoc; cbn [String.append]); reflexivity.
Qed.

Lemma dump_rewrites_the_file_in_column_order_witness :
  trigger_status Demo.rt (Demo.status_payload "1") = Some (JInt 1)
  /\ eq_zero (JInt 1) = false
  /\ strikes NoFault (List.length (storage (app (Demo.loaded 2)))) = false
  /\ csvfile (env (snd (on_crash_event_received Demo.rt NoFault
                          (Demo.status_payload "1") (Demo.loaded 2))))
     = Some ("timestamp,distance,accel,speed,displacement"
               ++ Csv.lineterminator
               ++ "1.0,0,0,0,0" ++ Csv.lineterminator
               ++ "2.0,0,0,0,0" ++ Csv.lineterminator)%string.
Proof.
  split; [reflexivity |].
  split; [reflexivity |].
  split; [reflexivity |].
  assert (H := dump_rewrites_the_file_in_column_order Demo.rt NoFault
                 (Demo.status_payload "1") (JInt 1) (Demo.loaded 2)
                 eq_refl eq_refl eq_refl).
  destruct H as (Hf & _).
  rewrite Hf. reflexivity.
Defined.

(** C9.  The loop that reads the deque for the dump leaves the application
    object as it is, whatever the storage does; run twice in a row it reads
    the same samples in the same order, so each run appends the same lines
    to the file. *)
Theorem reading_the_deque_does_not_change_it
  (rt : runtime) (io : fault) (j k : nat) (s : sys) :
  let first := write_entries rt NoFault j s in
  let second := write_entries rt NoFault k (snd first) in
  app (snd (write_entries rt io j s)) = app s
  /\ app (snd first) = app s
  /\ app (snd second) = app s
  /\ content (env (snd first))
     = (content (env s) ++ csv_text rt (storage (app s)))%string
  /\ content (env (snd second))
     = (content (env (snd first)) ++ csv_text rt (storage (app s)))%string.
Proof.
  intros first second.
  assert (Hframe : forall io' i s', app (snd (write_entries rt io' i s')) = app s').
  { intros io' i s'. unfold write_entries, bind, gets. cbv beta iota.
    apply (for_each_writerow_frame rt io' (storage (app s')) i s'). }
  assert (Hread : forall i s',
             content (env (snd (write_entries rt NoFault i s')))
             = (content (env s') ++ csv_text rt (storage (app s')))%string).
  { intros i s'. unfold write_entries, bind, gets. cbv beta iota.
    apply (for_each_writerow_ok rt NoFault (storage (app s')) i s'). exact I. }
  assert (H1 : app (snd first) = app s) by apply Hframe.
  repeat split.
  - apply Hframe.
  - exact H1.
  - subst second. rewrite Hframe. exact H1.
  - apply Hread.
  - subst second. rewrite Hread, H1. reflexivity.
Qed.

(** ** The cached signals (claim C10) *)

(** C10.  Each signal handler writes its own field only: the other three
    cached signals, the deque and the surroundings are as before, whether
    the reply holds the data point or not. *)
Theorem signal_handlers_write_their_own_slot
  (data : DataPointReply) (s : sys) :
  (let s' := snd (on_distance_change data s) in
   accel (app s') = accel (app s)
   /\ speed (app s') = speed (app s)
   /\ displacement (app s') = displacement (app s)
   /\ storage (app s') = storage (app s)
   /\ env s' = env s)
  /\ (let s' := snd (on_accel_change data s) in
      distance (app s') = distance (app s)
      /\ speed (app s') = speed (app s)
      /\ displacement (app s') = displacement (app s)
      /\ storage (app s') = storage (app s)
      /\ env s' = env s)
  /\ (let s' := snd (on_speed_change data s) in
      distance (app s') = distance (app s)
      /\ accel (app s') = accel (app s)
      /\ displacement (app s') = displacement (app s)
      /\ storage (app s') = storage (app s)
      /\ env s' = env s)
  /\ (let s' := snd (on_displacement_change data s) in
      distance (app s') = distance (app s)
      /\ accel (app s') = accel (app s)
      /\ speed (app s') = speed (app s)
      /\ storage (app s') = storage (app s)
      /\ env s' = env s).
Proof.
  unfold on_distance_change, on_accel_change, on_speed_change,
    on_displacement_change, bind.
  split; [| split; [| split]];
    match goal with
    | |- context [reply_get ?d ?p ?s0] =>
        destruct (reply_get_cases d p s0) as [[v ->] | ->]
    end; cbn; repeat split.
Qed.

(** * Further properties of the code *)

(** ** What one event can do *)

(** A crash event either leaves the application object and the published
    messages alone, or it is a complete dump. *)
Lemma crash_handler_outcomes
  (rt : runtime) (io : fault) (data_str : string) (s : sys) :
  let r := on_crash_event_received rt io data_str s in
  (app (snd r) = app s /\ published (env (snd r)) = published (env s))
  \/ (fst r = Val tt
      /\ storage (app (snd r)) = []
      /\ (distance (app (snd r)) = distance (app s)
          /\ accel (app (snd r)) = accel (app s)
          /\ speed (app (snd r)) = speed (app s)
          /\ displacement (app (snd r)) = displacement (app s))
      /\ csvfile (env (snd r))
         = Some (csv_text rt (header :: storage (app s)))
      /\ published (env (snd r)) = published (env s) ++ [response]).
Proof.
  intros r. subst r.
  destruct (trigger_status rt data_str) as [v |] eqn:Hv.
  - destruct (eq_zero v) eqn:Hz.
    + left. rewrite (crash_handler_status rt io data_str v s Hv), Hz.
      split; reflexivity.
    + destruct (strikes io (List.length (storage (app s)))) eqn:Hio.
      * left.
        destruct (crash_handler_write_fails rt io data_str v s Hv Hz Hio)
          as (_ & Ha & Hp).
        split; assumption.
      * right. exact (crash_handler_dump rt io data_str v s Hv Hz Hio).
  - left.
    destruct (crash_handler_no_status rt io data_str s Hv) as (e & _ & ->).
    split; reflexivity.
Qed.

(** The part of the frame of the signal handlers that every one of them
    shares: deque and surroundings. *)
Lemma signal_handlers_frame_aux (s : sys) (data : DataPointReply) :
  (storage (app (snd (on_distance_change data s))) = storage (app s)
   /\ env (snd (on_distance_change data s)) = env s)
  /\ (storage (app (snd (on_accel_change data s))) = storage (app s)
      /\ env (snd (on_accel_change data s)) = env s)
  /\ (storage (app (snd (on_speed_change data s))) = storage (app s)
      /\ env (snd (on_speed_change data s)) = env s)
  /\ (storage (app (snd (on_displacement_change data s))) = storage (app s)
      /\ env (snd (on_displacement_change data s)) = env s).
Proof.
  unfold on_distance_change, on_accel_change, on_speed_change,
    on_displacement_change, bind.
  split; [| split; [| split]];
    match goal with
    | |- context [reply_get ?d ?p ?s0] =>
        destruct (reply_get_cases d p s0) as [[v ->] | ->]
    end; cbn; split; reflexivity.
Qed.

Lemma signal_change_step (rt : runtime) (s : sys) (ev : event) :
  is_signal_change ev = true ->
  storage (app (step rt s ev)) = storage (app s) /\ env (step rt s ev) = env s.
Proof.
  intros Hev. unfold step.
  pose proof (signal_handlers_frame_aux s) as H.
  destruct ev as [data | data | data | data | now | io data_str];
    try discriminate Hev; simpl handle;
    destruct (H data) as (H1 & H2 & H3 & H4); tauto.
Qed.

(** One step leaves the deque alone, or empties it, or stores the sample
    the timer built from the cached signals. *)
Lemma step_storage_cases (rt : runtime) (s : sys) (ev : event) :
  storage (app (step rt s ev)) = storage (app s)
  \/ storage (app (step rt s ev)) = []
  \/ exists now : float,
       storage (app (step rt s ev))
       = store_sample (storage (app s)) (reading now (app s)).
Proof.
  destruct ev as [data | data | data | data | now | io data_str];
    try (left; apply signal_change_step; reflexivity).
  - right. right. exists now. reflexivity.
  - unfold step, handle.
    destruct (crash_handler_outcomes rt io data_str s)
      as [[Ha _] | (_ & Hs & _)].
    + left. rewrite Ha. reflexivity.
    + right. left. exact Hs.
Qed.

Lemma store_sample_Forall (P : sample -> Prop) (d : list sample)
  (temp : sample) :
  Forall P d -> P temp -> Forall P (store_sample d temp).
Proof.
  intros Hd Ht. unfold store_sample, Deque.append, Deque.popleft.
  apply Forall_app. split; [| constructor; [exact Ht | constructor]].
  destruct (List.length d =? 300)%nat; [| exact Hd].
  destruct Hd; [constructor | assumption].
Qed.

(** ** Invariants of the running application *)

(** X1.  Whatever events arrive after construction, in whatever order, with
    whatever payloads and storage failures, the deque never holds more than
    300 samples. *)
Theorem deque_bounded_in_every_reachable_state
  (rt : runtime) (evs : list event) (w : world) :
  (List.length (storage (app (run rt evs {| app := init; env := w |})))
   <= 300)%nat.
Proof.
  apply run_keeps_bound. simpl. lia.
Qed.

(** X2.  Every sample the deque of a running application holds is a list of
    exactly five fields whose first field is a float, so every data row of a
    dump has as many fields as the header row. *)
Theorem samples_have_five_fields
  (rt : runtime) (evs : list event) (w : world) :
  forallb five_fields
    (storage (app (run rt evs {| app := init; env := w |}))) = true.
Proof.
  assert (Hinv : forall evs' s,
             Forall (fun row => five_fields row = true) (storage (app s)) ->
             Forall (fun row => five_fields row = true)
               (storage (app (run rt evs' s)))).
  { induction evs' as [| ev evs' IH]; intros s Hs; [exact Hs |].
    apply (IH (step rt s ev)).
    destruct (step_storage_cases rt s ev) as [-> | [-> | [now ->]]].
    - exact Hs.
    - constructor.
    - apply store_sample_Forall; [exact Hs | reflexivity]. }
  apply forallb_forall. apply Forall_forall. apply Hinv. constructor.
Qed.

(** X3.  From a deque that holds more than 300 samples the guard
    [len(self.storage) == 300] never fires again: nothing is evicted and the
    deque grows by every sample stored. *)
Theorem overlong_deque_keeps_growing (temps d : list sample) :
  (300 < List.length d)%nat ->
  store_samples d temps = d ++ temps.
Proof.
  revert d. induction temps as [| x temps IH]; intros d Hlen.
  - simpl. rewrite app_nil_r. reflexivity.
  - change (store_samples d (x :: temps))
      with (store_samples (store_sample d x) temps).
    assert (Hx : store_sample d x = d ++ [x]).
    { unfold store_sample, Deque.append.
      destruct (Nat.eqb_spec (List.length d) 300); [lia | reflexivity]. }
    rewrite Hx, IH by (rewrite length_app; simpl; lia).
    rewrite <- app_assoc. reflexivity.
Qed.

Lemma overlong_deque_keeps_growing_witness :
  (300 < List.length (repeat (@nil value) 301))%nat
  /\ List.length (store_samples (repeat [] 301) [[]; []]) = 303%nat.
Proof.
  split; [vm_compute; lia |].
  rewrite (overlong_deque_keeps_growing [[]; []] (repeat [] 301))
    by (vm_compute; lia).
  reflexivity.
Defined.

(** ** The timer loop and the cached signals *)

(** X4.  The timer loop never raises and changes nothing but the deque: the
    cached signals, the file, the published messages and the log are as at
    its entry.  Every sample it stores carries the signal values cached at
    its entry, with the time of its iteration. *)
Theorem timer_loop_samples_the_entry_cache (clock : list float) (s : sys) :
  timer_for_csv clock s
  = (Val tt,
     {| app := {| distance := distance (app s);
                  accel := accel (app s);
                  speed := speed (app s);
                  displacement := displacement (app s);
                  storage :=
                    store_samples (storage (app s))
                      (map (fun now => reading now (app s)) clock) |};
        env := env s |}).
Proof.
  revert s. induction clock as [| now later IH]; intros s.
  - destruct s as [[d a sp p st] w]. reflexivity.
  - cbn [timer_for_csv]. unfold bind. rewrite timer_iteration_spec.
    rewrite IH. reflexivity.
Qed.

(** X5.  The newest sample of the deque after an iteration of the timer
    loop is the time of the iteration followed by the four signals as
    cached at that moment, whatever events came before and however full
    the deque was. *)
Theorem newest_sample_is_the_current_cache
  (rt : runtime) (evs : list event) (now : float) (s : sys) :
  last (storage (app (run rt (evs ++ [TimerTick now]) s))) []
  = [VFloat now;
     distance (app (run rt evs s)); accel (app (run rt evs s));
     speed (app (run rt evs s)); displacement (app (run rt evs s))].
Proof.
  rewrite run_app.
  change (run rt [TimerTick now] (run rt evs s))
    with (snd (timer_iteration now (run rt evs s))).
  rewrite timer_iteration_spec. cbn [snd app storage].
  unfold store_sample, Deque.append. apply last_last.
Qed.

(** X6.  The subscriptions of [on_start] pair every data point with the
    handler that reads that very data point: a notification for a data
    point never raises, leaves its value in the field that caches the
    point, and changes no other cached signal, nor the deque, nor the
    surroundings. *)
Theorem notification_updates_the_subscribed_slot
  (point : datapoint) (v : value) (s : sys) :
  fst (notify point v s) = Val tt
  /\ cached point (app (snd (notify point v s))) = v
  /\ (forall other : datapoint,
         other <> point ->
         cached other (app (snd (notify point v s))) = cached other (app s))
  /\ storage (app (snd (notify point v s))) = storage (app s)
  /\ env (snd (notify point v s)) = env s.
Proof.
  destruct point; cbn; repeat split;
    intros other Hother; destruct other; try reflexivity; contradiction.
Qed.

(** X7.  Only the signal handlers change the cached signals: along any
    sequence of timer iterations and crash events, whatever their payloads
    and storage failures, the four cached signals keep their values. *)
Theorem cache_changes_only_on_signal_events
  (rt : runtime) (evs : list event) (s : sys) :
  forallb (fun ev => negb (is_signal_change ev)) evs = true ->
  forall point : datapoint,
    cached point (app (run rt evs s)) = cached point (app s).
Proof.
  revert s. induction evs as [| ev evs IH]; intros s Hevs point.
  - reflexivity.
  - simpl in Hevs. apply andb_prop in Hevs. destruct Hevs as [Hev Hrest].
    change (run rt (ev :: evs) s) with (run rt evs (step rt s ev)).
    rewrite (IH (step rt s ev) Hrest point).
    destruct ev as [data | data | data | data | now | io data_str];
      try discriminate Hev.
    + destruct point; reflexivity.
    + unfold step, handle.
      destruct (crash_handler_outcomes rt io data_str s)
        as [[Ha _] | (_ & _ & (Hd & Hacc & Hsp & Hp) & _)].
      * rewrite Ha. reflexivity.
      * destruct point; assumption.
Qed.

Lemma cache_changes_only_on_signal_events_witness :
  forallb (fun ev => negb (is_signal_change ev))
    (Demo.ticks 0 2 ++ [CrashEvent NoFault (Demo.status_payload "1")]) = true
  /\ cached Speed
       (app (run Demo.rt
               (Demo.ticks 0 2 ++ [CrashEvent NoFault (Demo.status_payload "1")])
               (Demo.loaded 1)))
     = cached Speed (app (Demo.loaded 1)).
Proof.
  split; [reflexivity |].
  apply (cache_changes_only_on_signal_events Demo.rt
           (Demo.ticks 0 2 ++ [CrashEvent NoFault (Demo.status_payload "1")])
           (Demo.loaded 1)).
  reflexivity.
Defined.

(** ** What is published and when *)


(** X9.  The deque is never emptied and no response is ever published
    unless the file was written in full: whenever a crash event changes the
    deque or the published messages, the handler has returned normally, the
    file holds the header row and a row for every sample the deque held,
    the deque is empty and exactly one response was added. *)
Theorem clear_and_response_only_after_the_file
  (rt : runtime) (io : fault) (data_str : string) (s : sys) :
  let r := on_crash_event_received rt io data_str s in
  storage (app (snd r)) <> storage (app s)
  \/ published (env (snd r)) <> published (env s) ->
  fst r = Val tt
  /\ csvfile (env (snd r)) = Some (csv_text rt (header :: storage (app s)))
  /\ storage (app (snd r)) = []
  /\ published (env (snd r)) = published (env s) ++ [response].
Proof.
  intros r Hchanged.
  destruct (crash_handler_outcomes rt io data_str s)
    as [[Ha Hp] | (Hr & Hs & _ & Hf & Hp)].
  - exfalso. fold r in Ha, Hp.
    destruct Hchanged as [H | H]; apply H; [rewrite Ha | rewrite Hp];
      reflexivity.
  - repeat split; assumption.
Qed.

Lemma clear_and_response_only_after_the_file_witness :
  (storage (app (snd (on_crash_event_received Demo.rt NoFault
                        (Demo.status_payload "1") (Demo.loaded 2))))
   <> storage (app (Demo.loaded 2))
   \/ published (env (snd (on_crash_event_received Demo.rt NoFault
                             (Demo.status_payload "1") (Demo.loaded 2))))
      <> published (env (Demo.loaded 2)))
  /\ csvfile (env (snd (on_crash_event_received Demo.rt NoFault
                          (Demo.status_payload "1") (Demo.loaded 2))))
     = Some (csv_text Demo.rt (header :: Demo.samples 2)).
Proof.
  assert (Hchanged :
            storage (app (snd (on_crash_event_received Demo.rt NoFault
                                 (Demo.status_payload "1") (Demo.loaded 2))))
            <> storage (app (Demo.loaded 2))
            \/ published (env (snd (on_crash_event_received Demo.rt NoFault
                                      (Demo.status_payload "1")
                                      (Demo.loaded 2))))
               <> published (env (Demo.loaded 2))).
  { left. vm_compute. discriminate. }
  split; [exact Hchanged |].
  apply (clear_and_response_only_after_the_file Demo.rt NoFault
           (Demo.status_payload "1") (Demo.loaded 2) Hchanged).
Defined.

(** X10.  Timer iterations and signal updates touch neither the file nor
    the message bus nor the log: only crash events do. *)
Theorem sampling_leaves_the_surroundings
  (rt : runtime) (evs : list event) (s : sys) :
  sampling evs = true ->
  env (run rt evs s) = env s.
Proof.
  intros Hs. apply (run_sampling rt evs s Hs).
Qed.

Lemma sampling_leaves_the_surroundings_witness :
  sampling (Demo.ticks 0 4) = true
  /\ env (run Demo.rt (Demo.ticks 0 4) (Demo.loaded 0)) = env (Demo.loaded 0).
Proof.
  split; [reflexivity |].
  apply (sampling_leaves_the_surroundings Demo.rt (Demo.ticks 0 4)
           (Demo.loaded 0)).
  reflexivity.
Defined.

(** ** Dumps in a row and dumps that fail *)

(** X11.  Each dump replaces the file: when a second crash event follows a
    successful dump before the timer has stored a new sample, the file holds
    the header row only and the rows of the first dump are gone. *)
Theorem second_dump_overwrites_the_first
  (rt : runtime) (first second : string) (v1 v2 : json) (s : sys) :
  trigger_status rt first = Some v1 ->
  eq_zero v1 = false ->
  trigger_status rt second = Some v2 ->
  eq_zero v2 = false ->
  csvfile (env (run rt [CrashEvent NoFault first] s))
  = Some (csv_text rt (header :: storage (app s)))
  /\ csvfile (env (run rt [CrashEvent NoFault first;
                           CrashEvent NoFault second] s))
     = Some (csv_text rt [header])
  /\ published (env (run rt [CrashEvent NoFault first;
                             CrashEvent NoFault second] s))
     = published (env s) ++ [response; response].
Proof.
  intros Hv1 Hz1 Hv2 Hz2.
  destruct (crash_handler_dump rt NoFault first v1 s Hv1 Hz1 eq_refl)
    as (_ & Hs1 & _ & Hf1 & Hp1).
  set (s1 := snd (on_crash_event_received rt NoFault first s)) in *.
  destruct (crash_handler_dump rt NoFault second v2 s1 Hv2 Hz2 eq_refl)
    as (_ & _ & _ & Hf2 & Hp2).
  split; [exact Hf1 |].
  change (run rt [CrashEvent NoFault first; CrashEvent NoFault second] s)
    with (snd (on_crash_event_received rt NoFault second s1)).
  split.
  - rewrite Hf2, Hs1. reflexivity.
  - rewrite Hp2, Hp1, <- app_assoc. reflexivity.
Qed.

Lemma second_dump_overwrites_the_first_witness :
  trigger_status Demo.rt (Demo.status_payload "1") = Some (JInt 1)
  /\ eq_zero (JInt 1) = false
  /\ csvfile (env (run Demo.rt
                     [CrashEvent NoFault (Demo.status_payload "1");
                      CrashEvent NoFault (Demo.status_payload "1")]
                     (Demo.loaded 3)))
     = Some (csv_text Demo.rt [header]).
Proof.
  split; [reflexivity |].
  split; [reflexivity |].
  apply (second_dump_overwrites_the_first Demo.rt
           (Demo.status_payload "1") (Demo.status_payload "1")
           (JInt 1) (JInt 1) (Demo.loaded 3));
    reflexivity.
Defined.

(** X12.  A dump during which the storage raises ends the handler with
    [OSError] before it reaches [clear] and [set_response]: the deque and
    the cached signals are as before the dump and nothing is published.
    When it is [open] that fails, the file of the previous dump is
    untouched. *)
Theorem failed_dump_keeps_deque_and_bus
  (rt : runtime) (io : fault) (data_str : string) (v : json) (s : sys) :
  trigger_status rt data_str = Some v ->
  eq_zero v = false ->
  strikes io (List.length (storage (app s))) = true ->
  let r := on_crash_event_received rt io data_str s in
  fst r = Raise OSError
  /\ app (snd r) = app s
  /\ published (env (snd r)) = published (env s)
  /\ (io = OpenFails -> csvfile (env (snd r)) = csvfile (env s)).
Proof.
  intros Hv Hz Hio r.
  destruct (crash_handler_write_fails rt io data_str v s Hv Hz Hio)
    as (Hr & Ha & Hp).
  repeat split; try assumption.
  intros ->. subst r.
  rewrite (crash_handler_status rt OpenFails data_str v s Hv), Hz, dump_steps.
  reflexivity.
Qed.

Lemma failed_dump_keeps_deque_and_bus_witness :
  trigger_status Demo.rt (Demo.status_payload "1") = Some (JInt 1)
  /\ eq_zero (JInt 1) = false
  /\ strikes (WriteFails 2) (List.length (storage (app (Demo.loaded 3)))) = true
  /\ storage (app (snd (on_crash_event_received Demo.rt (WriteFails 2)
                          (Demo.status_payload "1") (Demo.loaded 3))))
     = Demo.samples 3.
Proof.
  split; [reflexivity |].
  split; [reflexivity |].
  split; [reflexivity |].
  assert (H := failed_dump_keeps_deque_and_bus Demo.rt (WriteFails 2)
                 (Demo.status_payload "1") (JInt 1) (Demo.loaded 3)
                 eq_refl eq_refl eq_refl).
  destruct H as (_ & Ha & _).
  rewrite Ha. reflexivity.
Defined.

(** ** Payloads without a number for a status *)

(** X13.  A payload from which no status can be read ends the handler with
    an exception it does not catch, before anything but the log is touched:
    the exception of the decoder when [json.loads] raises, [TypeError] when
    the decoded value is no [dict], [KeyError] when it is a [dict] without
    the key [status].  The application object, the file and the published
    messages are unchanged. *)
Theorem payload_without_status_raises
  (rt : runtime) (io : fault) (data_str : string) (s : sys) :
  trigger_status rt data_str = None ->
  let r := on_crash_event_received rt io data_str s in
  fst r = Raise (match json_loads rt data_str with
                 | None => json_error rt data_str
                 | Some (JDict _) => KeyError
                 | Some _ => TypeError
                 end)
  /\ app (snd r) = app s
  /\ csvfile (env (snd r)) = csvfile (env s)
  /\ published (env (snd r)) = published (env s).
Proof.
  intros Hnone r. subst r.
  assert (Hraise :
            on_crash_event_received rt io data_str s
            = (Raise (match json_loads rt data_str with
                      | None => json_error rt data_str
                      | Some (JDict _) => KeyError
                      | Some _ => TypeError
                      end),
               entered s)).
  { unfold trigger_status in Hnone.
    unfold on_crash_event_received, json_loads_m.
    destruct (json_loads rt data_str) as [[| | | | | | d] |];
      try reflexivity.
    unfold bind at 1 2 3. simpl.
    unfold subscript_m, subscript. rewrite Hnone. reflexivity. }
  rewrite Hraise. repeat split; reflexivity.
Qed.

Lemma payload_without_status_raises_witness :
  trigger_status Demo.rt "crash" = None
  /\ trigger_status Demo.rt "{}" = None
  /\ fst (on_crash_event_received Demo.rt NoFault "crash" (Demo.loaded 2))
     = Raise JSONDecodeError
  /\ fst (on_crash_event_received Demo.rt NoFault "{}" (Demo.loaded 2))
     = Raise KeyError.
Proof.
  split; [reflexivity |].
  split; [reflexivity |].
  split.
  - apply (payload_without_status_raises Demo.rt NoFault "crash"
             (Demo.loaded 2)).
    reflexivity.
  - apply (payload_without_status_raises Demo.rt NoFault "{}"
             (Demo.loaded 2)).
    reflexivity.
Defined.

(** X14.  The handler does not check that the status is a number.  A
    status that is [null], a string, a list or a [dict] is unequal to [0],
    so on a storage that works the handler dumps as for any nonzero
    status: it returns normally, the file is written, the deque is cleared
    and the response is published. *)
Theorem status_that_is_no_number_triggers_the_dump
  (rt : runtime) (io : fault) (data_str : string) (v : json) (s : sys) :
  trigger_status rt data_str = Some v ->
  numeric v = false ->
  strikes io (List.length (storage (app s))) = false ->
  let r := on_crash_event_received rt io data_str s in
  fst r = Val tt
  /\ csvfile (env (snd r)) = Some (csv_text rt (header :: storage (app s)))
  /\ storage (app (snd r)) = []
  /\ published (env (snd r)) = published (env s) ++ [response].
Proof.
  intros Hv Hnum Hio r.
  assert (Hnz : eq_zero v = false)
    by (destruct v; try discriminate; reflexivity).
  destruct (crash_handler_dump rt io data_str v s Hv Hnz Hio)
    as (Hr & Hs & _ & Hf & Hp).
  repeat split; assumption.
Qed.

Lemma status_that_is_no_number_triggers_the_dump_witness :
  trigger_status Demo.rt (Demo.status_payload "null") = Some JNull
  /\ numeric JNull = false
  /\ strikes NoFault (List.length (storage (app (Demo.loaded 2)))) = false
  /\ storage (app (Demo.loaded 2)) = Demo.samples 2
  /\ storage (app (snd (on_crash_event_received Demo.rt NoFault
                          (Demo.status_payload "null") (Demo.loaded 2))))
     = [].
Proof.
  split; [reflexivity |].
  split; [reflexivity |].
  split; [reflexivity |].
  split; [reflexivity |].
  apply (status_that_is_no_number_triggers_the_dump Demo.rt NoFault
           (Demo.status_payload "null") JNull (Demo.loaded 2));
    reflexivity.
Defined.

(** ** Sampling, a dump, sampling, a dump *)

(** X15.  Take timer iterations and signal updates, a dump that succeeds,
    further timer iterations and signal updates, and a second dump that
    succeeds, one after the other.  The first file holds the newest 300 of
    the samples that were in the deque or were stored before the first dump,
    oldest first; the deque before the second dump holds the newest 300 of
    the samples stored after the first dump, and the second file holds
    exactly these.  When neither stretch exceeds 300 samples, the rows of
    the first file followed by the deque are all the samples, each once and
    in the order they were stored. *)
Theorem two_dumps_share_no_sample
  (rt : runtime) (pre post : list event) (io1 io2 : fault)
  (first second : string) (v1 v2 : json) (s : sys) :
  let s1 := run rt pre s in
  let s2 := step rt s1 (CrashEvent io1 first) in
  let s3 := run rt post s2 in
  let s4 := step rt s3 (CrashEvent io2 second) in
  let before := storage (app s) ++ sampled rt pre s in
  let after := sampled rt post s2 in
  sampling pre = true ->
  sampling post = true ->
  trigger_status rt first = Some v1 ->
  eq_zero v1 = false ->
  trigger_status rt second = Some v2 ->
  eq_zero v2 = false ->
  strikes io1 (List.length (storage (app s1))) = false ->
  strikes io2 (List.length (storage (app s3))) = false ->
  (List.length (storage (app s)) <= 300)%nat ->
  csvfile (env s3)
  = Some (csv_text rt (header :: skipn (List.length before - 300) before))
  /\ storage (app s3) = skipn (List.length after - 300) after
  /\ csvfile (env s4)
     = Some (csv_text rt (header :: skipn (List.length after - 300) after))
  /\ storage (app s4) = []
  /\ ((List.length before <= 300)%nat ->
      (List.length after <= 300)%nat ->
      csvfile (env s3) = Some (csv_text rt (header :: before))
      /\ before ++ storage (app s3)
         = storage (app s) ++ sampled rt pre s ++ sampled rt post s2).
Proof.
  intros s1 s2 s3 s4 before after Hpre Hpost Hv1 Hz1 Hv2 Hz2 Hio1 Hio2 Hlen.
  destruct (run_sampling rt pre s Hpre) as [_ Hsto1]. fold s1 in Hsto1.
  rewrite store_samples_tail, <- length_app in Hsto1 by assumption.
  fold before in Hsto1.
  destruct (crash_handler_dump rt io1 first v1 s1 Hv1 Hz1 Hio1)
    as (_ & Hsto2 & _ & Hfile2 & _).
  change (snd (on_crash_event_received rt io1 first s1)) with s2
    in Hsto2, Hfile2.
  destruct (run_sampling rt post s2 Hpost) as [Henv3 Hsto3].
  fold s3 in Henv3, Hsto3.
  rewrite Hsto2, store_samples_tail in Hsto3 by (simpl; lia).
  cbn [List.length app Nat.add] in Hsto3. fold after in Hsto3.
  destruct (crash_handler_dump rt io2 second v2 s3 Hv2 Hz2 Hio2)
    as (_ & Hsto4 & _ & Hfile4 & _).
  change (snd (on_crash_event_received rt io2 second s3)) with s4
    in Hsto4, Hfile4.
  assert (Hfile3 : csvfile (env s3)
                   = Some (csv_text rt
                             (header :: skipn (List.length before - 300) before)))
    by (rewrite Henv3, Hfile2, Hsto1; reflexivity).
  split; [exact Hfile3 |].
  split; [exact Hsto3 |].
  split; [rewrite Hfile4, Hsto3; reflexivity |].
  split; [exact Hsto4 |].
  intros Hb Ha. split.
  - rewrite Hfile3.
    replace (List.length before - 300)%nat with 0%nat by lia.
    reflexivity.
  - rewrite Hsto3.
    replace (List.length after - 300)%nat with 0%nat by lia.
    subst before after. cbn [skipn app]. rewrite <- app_assoc. reflexivity.
Qed.

Lemma two_dumps_share_no_sample_witness :
  sampling (Demo.ticks 0 3) = true
  /\ sampling (Demo.ticks 3 2) = true
  /\ trigger_status Demo.rt (Demo.status_payload "1") = Some (JInt 1)
  /\ eq_zero (JInt 1) = false
  /\ trigger_status Demo.rt (Demo.status_payload "null") = Some JNull
  /\ eq_zero JNull = false
  /\ (List.length (storage (app (Demo.loaded 0))) <= 300)%nat
  /\ csvfile
       (env (step Demo.rt
               (run Demo.rt (Demo.ticks 3 2)
                  (step Demo.rt (run Demo.rt (Demo.ticks 0 3) (Demo.loaded 0))
                     (CrashEvent NoFault (Demo.status_payload "1"))))
               (CrashEvent (WriteFails 9) (Demo.status_payload "null"))))
     = Some (csv_text Demo.rt (header :: map Demo.sample_at (seq 3 2))).
Proof.
  split; [reflexivity |].
  split; [reflexivity |].
  split; [reflexivity |].
  split; [reflexivity |].
  split; [reflexivity |].
  split; [reflexivity |].
  split; [simpl; lia |].
  assert (H := two_dumps_share_no_sample Demo.rt (Demo.ticks 0 3)
                 (Demo.ticks 3 2) NoFault (WriteFails 9)
                 (Demo.status_payload "1") (Demo.status_payload "null")
                 (JInt 1) JNull (Demo.loaded 0)
                 eq_refl eq_refl eq_refl eq_refl eq_refl eq_refl
                 eq_refl eq_refl).
  destruct H as (_ & _ & Hfile & _).
  - simpl. lia.
  - rewrite Hfile. reflexivity.
Defined.
